(** * OSlash: the Reader and State monads (oslash/reader.py, oslash/state.py)

    A shallow embedding of the two classes and of the fragment of Python they
    rely on: calls with positional arguments, exceptions with [try]/[except],
    and a mutable world that the wrapped functions may read and write. *)

From Stdlib Require Import List ZArith String Bool Lia.
Import ListNotations.
Local Open Scope Z_scope.

Set Implicit Arguments.

(** ** Python computations *)

(** Exceptions, by the classes the code distinguishes: [except TypeError],
    [except Exception], and what neither catches ([KeyboardInterrupt],
    [SystemExit], ...: subclasses of [BaseException] only). *)
Inductive exn : Type :=
| TypeError
| Exc (name : string)
| BaseExc (name : string).

Definition is_TypeError (e : exn) : bool :=
  match e with TypeError => true | _ => false end.

Definition is_Exception (e : exn) : bool :=
  match e with BaseExc _ => false | _ => true end.

Inductive outcome (A : Type) : Type :=
| Return (a : A)
| Raise (e : exn).
Arguments Raise {A} e.

(** A computation runs in a world [W] (whatever the wrapped functions capture
    and mutate), returns or raises, and leaves a world behind. *)
Definition M (W A : Type) : Type := W -> outcome A * W.

Definition ret {W A} (a : A) : M W A := fun w => (Return a, w).

Definition raise {W A} (e : exn) : M W A := fun w => (Raise e, w).

Definition seq {W A B} (m : M W A) (k : A -> M W B) : M W B :=
  fun w => match m w with
           | (Return a, w') => k a w'
           | (Raise e, w') => (Raise e, w')
           end.

Notation "x <- m ;; k" := (seq m (fun x => k))
  (at level 61, m at next level, right associativity).
Notation "' pat <- m ;; k" := (seq m (fun x => match x with pat => k end))
  (at level 61, pat pattern, m at next level, right associativity).

(** [try: body  except C: handler], where [catches] decides [isinstance(e, C)]. *)
Definition try_except {W A} (body : M W A) (catches : exn -> bool)
    (handler : M W A) : M W A :=
  fun w => match body w with
           | (Raise e, w') => if catches e then handler w' else (Raise e, w')
           | r => r
           end.

(** ** Callables *)

(** A Python function takes its positional arguments as a tuple. *)
Definition callable (W A B : Type) : Type := list A -> M W B.

(** [lambda x: body] and [lambda x, y: body]: any other number of arguments is
    a [TypeError] raised by the call itself. *)
Definition lam1 {W A B} (body : A -> M W B) : callable W A B :=
  fun args => match args with
              | [x] => body x
              | _ => raise TypeError
              end.

Definition lam2 {W A B} (body : A -> A -> M W B) : callable W A B :=
  fun args => match args with
              | [x; y] => body x y
              | _ => raise TypeError
              end.

(** The call protocol, for a call with at least one positional argument:
    [call f x rest] is [f(x, *rest)]. Functions and objects with a [__call__]
    method are both called this way. *)
Class Callable (W F A B : Type) : Type :=
  call : F -> A -> list A -> M W B.

#[global] Instance callable_Callable {W A B} : Callable W (callable W A B) A B :=
  fun f x rest => f (x :: rest).

Notation "f ⟨ x ⟩" := (call f x []) (at level 1, format "f ⟨ x ⟩").

(** [functools.partial(func, *args)]: the function and the arguments bound so
    far; calling it supplies the rest. *)
Record partial (F A : Type) : Type := Partial { func : F; bound : list A }.

#[global] Instance partial_Callable {W F A B} `{Callable W F A B} :
    Callable W (partial F A) A B :=
  fun p x rest => match bound p ++ x :: rest with
                  | y :: ys => call (func p) y ys
                  | [] => raise TypeError
                  end.

(** ** oslash/reader.py *)

Module reader.

Record Reader (W E A : Type) : Type := mkReader { fn : callable W E A }.

(** What [map] and [apply] leave in [ret]: the value of the application, or
    the [partial] built by the [except TypeError] branch. *)
Inductive applied (F A B : Type) : Type :=
| Value (b : B)
| Curried (p : partial F A).
Arguments Value {F A B} b.
Arguments Curried {F A B} p.

Section Reader.
Context {W E A : Type}.

(** [__call__(self, *args)]:
    [self.fn( *args ) if args else self.fn] (no keyword arguments are
    modelled). The type of the result depends on whether arguments came. *)
Definition called (args : list E) : Type :=
  match args with
  | [] => callable W E A
  | _ :: _ => M W A
  end.

Definition __call__ (self : Reader W E A) (args : list E) : called args :=
  match args with
  | [] => fn self
  | _ :: _ => fn self args
  end.

(** [run(self, *args)]: [self( *args )]. *)
Definition run (self : Reader W E A) (args : list E) : called args :=
  __call__ self args.

(** What a call hands back, seen as one Python value: the wrapped function
    itself, or the computation of its result. *)
Inductive returned : Type :=
| Function (f : callable W E A)
| Outcome (m : M W A).

Definition returned_by (args : list E) : called args -> returned :=
  match args with
  | [] => Function
  | _ :: _ => Outcome
  end.

End Reader.

(** A Reader is called through its [__call__]. *)
#[global] Instance Reader_Callable {W E A} : Callable W (Reader W E A) E A :=
  fun self x rest => __call__ self (x :: rest).

Section Combinators.
Context {W E A : Type}.

(** [unit(cls, value)]: [cls(lambda _: value)]. *)
Definition unit (value : A) : Reader W E A :=
  mkReader (lam1 (fun _ => ret value)).

(** [pure(cls, fn)]: [cls.unit(fn)]. *)
Definition pure (fn : A) : Reader W E A := unit fn.

(** [map(self, fn)]. *)
Definition map {F B} `{Callable W F A B} (self : Reader W E A) (fn : F)
    : Reader W E (applied F A B) :=
  let _compose : callable W E (applied F A B) :=
    lam1 (fun x =>
      try_except
        (v <- self⟨x⟩ ;; b <- fn⟨v⟩ ;; ret (Value b))
        is_TypeError
        (v <- self⟨x⟩ ;; ret (Curried (Partial fn [v])))) in
  mkReader _compose.

(** [bind(self, fn)]: [Reader(lambda x: fn(self(x))(x))]. *)
Definition bind {F B} `{Callable W F A (Reader W E B)}
    (self : Reader W E A) (fn : F) : Reader W E B :=
  mkReader (lam1 (fun x => v <- self⟨x⟩ ;; r <- fn⟨v⟩ ;; r⟨x⟩)).

(** [apply(self, something)]; [self] holds the function. *)
Definition apply {F B} `{Callable W F A B} (self : Reader W E F)
    (something : Reader W E A) : Reader W E (applied F A B) :=
  let g : callable W E A := run something [] in
  let _compose : callable W E (applied F A B) :=
    lam1 (fun x =>
      f <- self⟨x⟩ ;;
      try_except
        (v <- g⟨x⟩ ;; b <- f⟨v⟩ ;; ret (Value b))
        is_TypeError
        (v <- g⟨x⟩ ;; ret (Curried (Partial f [v])))) in
  mkReader _compose.

End Combinators.

(** [__eq__(self, other)]: both sides are called on [environment = 42], so
    the environment is an integer; [py_eq] is the [==] of the results. *)
Definition __eq__ {W A} (py_eq : A -> A -> M W bool)
    (self other : Reader W Z A) : M W bool :=
  let environment := 42 in
  try_except
    (a <- self⟨environment⟩ ;; b <- other⟨environment⟩ ;; py_eq a b)
    is_Exception
    (ret false).

(** [__str__(self)]: ["Reader(%s)" % self.fn()], the wrapped function called
    with no argument at all; [format v] is ["Reader(%s)" % v]. *)
Definition __str__ {W E A} (format : A -> M W string) (self : Reader W E A)
    : M W string :=
  v <- fn self [] ;; format v.

(** [__repr__(self)]: [str(self)]. *)
Definition __repr__ {W E A} (format : A -> M W string) (self : Reader W E A)
    : M W string :=
  __str__ format self.

(** *** class MonadReader(Reader) *)

(** An instance of the subclass, [MonadReader(fn)]: it is a Reader and has
    every method of Reader (the coercion), and it alone has [local]. The
    combinators of Reader build their result with [Reader(...)], so what they
    return, and what [local] returns, is a plain Reader without [local]. *)
Record MonadReader (W E A : Type) : Type :=
  mkMonadReader { as_Reader : Reader W E A }.

Coercion as_Reader : MonadReader >-> Reader.

#[global] Instance MonadReader_Callable {W E A}
    : Callable W (MonadReader W E A) E A :=
  fun self x rest => __call__ self (x :: rest).

Section MonadReader_methods.
Context {W E : Type}.

(** [ask(cls)]: [cls(lambda x: x)]. *)
Definition ask : MonadReader W E E :=
  mkMonadReader (mkReader (lam1 (fun x => ret x))).

(** [asks(cls, func)]:
    [cls.ask().bind(Reader(lambda e: cls.unit(func(e))))]. *)
Definition asks {F B} `{Callable W F E B} (func : F) : Reader W E B :=
  bind ask (mkReader (lam1 (fun e => v <- func⟨e⟩ ;; ret (unit v)))).

(** [local(self, func)]: [Reader(lambda e: self.run(func(e)))]. *)
Definition local {F E' A} `{Callable W F E' E} (self : MonadReader W E A)
    (func : F) : Reader W E' A :=
  mkReader (lam1 (fun e => v <- func⟨e⟩ ;; run self [v])).

End MonadReader_methods.

End reader.

(** ** oslash/state.py *)

Module state.

(** Modelled from the spec: [Unit], imported from oslash/util.py, is the
    sentinel "no meaningful value" marker that [put] returns as its result. *)
Inductive UnitType : Type := Unit.

Record State (W S A : Type) : Type := mkState { _value : callable W S (A * S) }.

Section State.
Context {W S A : Type}.

(** [run(self, state)]: [self._value(state)]. *)
Definition run (self : State W S A) (state : S) : M W (A * S) :=
  (_value self)⟨state⟩.

(** [__call__(self, state)]: [self.run(state)]. *)
Definition __call__ (self : State W S A) (state : S) : M W (A * S) :=
  run self state.

(** [unit(cls, value)]: [cls(lambda state: (value, state))]. *)
Definition unit (value : A) : State W S A :=
  mkState (lam1 (fun state => ret (value, state))).

(** [map(self, mapper)]; the inner function is applied to the unpacked
    pair, [_( *self.run(state) )]. *)
Definition map {F B} `{Callable W F A B} (self : State W S A) (mapper : F)
    : State W S B :=
  let _' (a : A) (state : S) : M W (B * S) :=
    b <- mapper⟨a⟩ ;; ret (b, state) in
  mkState (lam1 (fun state => '(a, s) <- run self state ;; _' a s)).

End State.

Section Bind.
Context {W S A : Type}.

(** [bind(self, fn)]. *)
Definition bind {F B} `{Callable W F A (State W S B)} (self : State W S A)
    (fn : F) : State W S B :=
  let _' (result : A) (state : S) : M W (B * S) :=
    m <- fn⟨result⟩ ;; run m state in
  mkState (lam1 (fun state => '(a, s) <- run self state ;; _' a s)).

End Bind.

(** [get(cls)]: [State(lambda state: (state, state))]. *)
Definition get {W S} : State W S S :=
  mkState (lam1 (fun state => ret (state, state))).

(** [put(cls, new_state)]: [State(lambda state: (Unit, new_state))]. *)
Definition put {W S} (new_state : S) : State W S UnitType :=
  mkState (lam1 (fun state => ret (Unit, new_state))).

(** [__eq__(self, other)]: [self(state) == other(state)] with [state = 42];
    [py_eq] is the [==] of the two pairs. *)
Definition __eq__ {W A} (py_eq : A * Z -> A * Z -> M W bool)
    (self other : State W Z A) : M W bool :=
  let state := 42 in
  a <- __call__ self state ;; b <- __call__ other state ;; py_eq a b.

End state.


(** ** Concrete computations used below *)

Import reader.

Section Scenario.
Context {W E : Type}.

(** [lambda x: x + 1] *)
Definition succ_fn : callable W Z Z := lam1 (fun x => ret (x + 1)).

(** [lambda f: f(10)] *)
Definition at_10 : callable W (callable W Z Z) Z := lam1 (fun f => f⟨10⟩).

(** [Reader.pure(lambda x: x + 1).map(lambda f: f(10))] *)
Definition scenario : Reader W E (applied _ (callable W Z Z) Z) :=
  map (pure succ_fn) at_10.
End Scenario.

Section Threading.
Context {W : Type}.

(** [m1 = State(lambda s: (1, s+1))] *)
Definition m1 : state.State W Z Z :=
  state.mkState (lam1 (fun s => ret (1, s + 1))).

(** [m2 = lambda a: State(lambda s: (a+1, s*2))] *)
Definition m2 : callable W Z (state.State W Z Z) :=
  lam1 (fun a => ret (state.mkState (lam1 (fun s => ret (a + 1, s * 2))))).
End Threading.

Section Probing.
Context {W : Type}.

(** [Reader(lambda env: env["key"])]: subscripting the integer probe is a
    [TypeError]. *)
Definition subscript_reader : Reader W Z Z :=
  mkReader (lam1 (fun env => raise TypeError)).


(** [Reader(lambda env: sys.exit(1))]: [SystemExit] is not of class
    [Exception]. *)
Definition exiting_reader : Reader W Z Z :=
  mkReader (lam1 (fun env => raise (BaseExc "SystemExit"))).

(** [==] on integers and on pairs of integers. *)
Definition int_eq (a b : Z) : M W bool := ret (a =? b).

End Probing.

(** Counting invocations: the world gets a counter in front, a counted
    function bumps it at every call and then behaves as before, an uncounted
    one leaves it alone. [conv] carries over what the function returns (a
    Reader or a function of the old world) to the new world. *)
Section Counting.
Context {W : Type}.

Definition instrumented {A B B'} (bump : nat) (conv : B -> B')
    (h : callable W A B) : callable (nat * W) A B' :=
  fun args '(n, w) =>
    let (o, w') := h args w in
    (match o with Return b => Return (conv b) | Raise e => Raise e end,
     (bump + n, w'))%nat.

Definition counted {A B} (h : callable W A B) : callable (nat * W) A B :=
  instrumented 1 (fun b => b) h.

Definition uncounted {A B} (h : callable W A B) : callable (nat * W) A B :=
  instrumented 0 (fun b => b) h.

(** The Reader whose wrapped function is [h], counted, and a Reader of the
    old world carried over, uncounted. *)
Definition counted_reader {E A} (h : callable W E A)
    : Reader (nat * W) E A :=
  mkReader (counted h).

Definition uncounted_reader {E A} (r : Reader W E A)
    : Reader (nat * W) E A :=
  mkReader (uncounted (fn r)).

(** The counter after [m] has run from counter 0 in the world [w]. *)
Definition invocations {A} (m : M (nat * W) A) (w : W) : nat :=
  fst (snd (m (0%nat, w))).

Definition raised_TypeError {A} (r : outcome A * W) : bool :=
  match fst r with
  | Raise e => is_TypeError e
  | Return _ => false
  end.

(** [lambda _: 5] and [lambda a, b: a + b] *)
Definition five : callable W Z Z := lam1 (fun _ => ret 5).

Definition add2 : callable W Z Z := lam2 (fun a b => ret (a + b)).
End Counting.

(** A wrapped function with a memory: it raises [TypeError] the first time it
    is called (world 0) and returns 7 from then on. *)
Definition flaky : callable nat Z Z :=
  lam1 (fun _ n => (if Nat.eqb n 0 then Raise TypeError else Return 7, S n)).

(** Functions handed to the combinators in the laws below. *)
Section Functions.
Context {W : Type}.

(** [lambda x: x] *)
Definition identity {A} : callable W A A := lam1 (fun x => ret x).

(** [lambda x: g(f(x))] *)
Definition compose {F G A B C} `{Callable W F A B} `{Callable W G B C}
    (f : F) (g : G) : callable W A C :=
  lam1 (fun x => y <- f⟨x⟩ ;; g⟨y⟩).

(** A function that computes its result from its argument and nothing else. *)
Definition pure_fn {A B} (h : A -> B) : callable W A B :=
  lam1 (fun x => ret (h x)).

(** [Reader.unit] and [State.unit], the class methods taken as functions. *)
Definition Reader_unit {E A} : callable W A (Reader W E A) :=
  lam1 (fun value => ret (unit value)).

Definition State_unit {S A} : callable W A (state.State W S A) :=
  lam1 (fun value => ret (state.unit value)).

(** [lambda x: Reader.unit(f(x))] and [lambda x: State.unit(f(x))] *)
Definition Reader_unit_of {E F A B} `{Callable W F A B} (f : F)
    : callable W A (Reader W E B) :=
  lam1 (fun x => y <- f⟨x⟩ ;; ret (unit y)).

Definition State_unit_of {S F A B} `{Callable W F A B} (f : F)
    : callable W A (state.State W S B) :=
  lam1 (fun x => y <- f⟨x⟩ ;; ret (state.unit y)).

(** [lambda _: m], for sequencing a computation after another. *)
Definition then_ {A B} (m : B) : callable W A B := lam1 (fun _ => ret m).

(** The outcome of [map] and [apply] off the fallback path. *)
Definition as_Value {F A B} (o : outcome B) : outcome (applied F A B) :=
  match o with
  | Return b => Return (Value b)
  | Raise e => Raise e
  end.

(** A function of exactly one parameter: no argument, or more than one, is a
    [TypeError] raised before the body runs. *)
Definition one_parameter {A B} (h : callable W A B) : Prop :=
  h [] = raise TypeError /\
  forall x y rest, h (x :: y :: rest) = raise TypeError.
End Functions.

(** * Properties *)

(** ** Proof automation *)

(** Runs the computation that the goal scrutinises next, on both outcomes,
    and reuses the outcome where the same computation runs again. *)
Ltac run_known :=
  repeat match goal with
         | H : ?m ?w = (_, _) |- context [?m ?w] => rewrite H
         end.

Ltac run_next :=
  match goal with
  | |- context [match ?m ?w with pair _ _ => _ end] =>
      let o := fresh "o" in
      let w' := fresh "w" in
      destruct (m w) as [o w'] eqn:?; destruct o
  end.

(** The same for the calls of the functions at hand, exception by exception. *)
Ltac run_fun :=
  match goal with
  | |- context [match ?h ?args ?w with pair _ _ => _ end] =>
      is_var h; destruct (h args w) as [[?|[]] ?] eqn:?
  | |- context [match fn ?r ?args ?w with pair _ _ => _ end] =>
      destruct (fn r args w) as [[?|[]] ?] eqn:?
  end.

Ltac run_funs :=
  repeat (cbn; unfold try_except, seq, ret, call, callable_Callable; cbn;
          run_known; try run_fun).

Ltac unpack :=
  repeat match goal with
         | |- context [let (_, _) := ?p in _] => is_var p; destruct p
         end.

Ltac run_all :=
  cbn; unfold seq, ret;
  repeat (cbn; unfold seq, ret; unpack; run_known; try run_next);
  try reflexivity.

(** ** Calling conventions *)

Lemma seq_Return W A B (m : M W A) (k : A -> M W B) w a w' :
  m w = (Return a, w') -> (x <- m ;; k x) w = k a w'.
Proof. unfold seq. intros ->. reflexivity. Qed.

Lemma seq_Raise W A B (m : M W A) (k : A -> M W B) w e w' :
  m w = (Raise e, w') -> (x <- m ;; k x) w = (Raise e, w').
Proof. unfold seq. intros ->. reflexivity. Qed.

Lemma seq_assoc W A B C (m : M W A) (k : A -> M W B) (h : B -> M W C) w :
  (y <- (x <- m ;; k x) ;; h y) w = (x <- m ;; y <- k x ;; h y) w.
Proof. unfold seq. destruct (m w) as [[a|e] w']; reflexivity. Qed.

Lemma call_Reader W E A (r : Reader W E A) (x : E) : r⟨x⟩ = fn r [x].
Proof. reflexivity. Qed.

Lemma call_lam1 W A B (body : A -> M W B) (x : A) : (lam1 body)⟨x⟩ = body x.
Proof. reflexivity. Qed.

(** A two-argument function called with one argument raises [TypeError];
    the [partial] that binds the first argument computes the call. *)
Lemma call_lam2_one W A B (body : A -> A -> M W B) (x : A) :
  (lam2 body)⟨x⟩ = raise TypeError.
Proof. reflexivity. Qed.

Lemma call_partial_lam2 W A B (body : A -> A -> M W B) (x y : A) :
  (Partial (lam2 body) [x])⟨y⟩ = body x y.
Proof. reflexivity. Qed.

(** ** Reader.run *)

(** C5: [r.run()] with no arguments is the wrapped function itself, and
    [r.run(e)] is the wrapped function applied to [e]: the same result, the
    same exception, the same effect on the world. *)
Theorem run_returns_fn_or_applies_it W E A (r : Reader W E A) :
  run r [] = fn r /\
  returned_by [] (run r []) = Function (fn r) /\
  (forall e : E, run r [e] = (fn r)⟨e⟩) /\
  (forall (body : E -> M W A) (e : E), run (mkReader (lam1 body)) [e] = body e).
Proof. repeat split. Qed.

(** ** MonadReader *)

(** C9: [MonadReader.ask().run(e0)] is [e0], and [MonadReader.asks(f).run(e0)]
    is [f(e0)], whatever [f(e0)] does. *)
Theorem ask_asks_run W E B F `{Callable W F E B} (f : F) (e0 : E) (w : W) :
  run ask [e0] w = (Return e0, w) /\
  run (asks f) [e0] w = f⟨e0⟩ w.
Proof.
  split; [reflexivity|].
  cbn. unfold seq, ret. cbn.
  destruct (f⟨e0⟩ w) as [[b|e] w']; reflexivity.
Qed.

(** ** The scenario of the specification *)

(** C4, what the code does: with an environment, whichever it is, the
    scenario runs to 11; with no argument [run] hands back the composed
    function, which returns 11 on every environment. *)
Theorem scenario_run W E (e : E) (w : W) :
  run scenario [e] w = (Return (Value 11), w) /\
  returned_by [] (run (@scenario W E) []) = Function (fn scenario) /\
  run (@scenario W E) [] [e] w = (Return (Value 11), w).
Proof. repeat split. Qed.

(** C4 as stated fails: [run()] is a function, not the value 11. *)
Lemma scenario_run_no_args_is_not_11 :
  returned_by [] (run (@scenario Datatypes.unit Z) [])
    <> Outcome (ret (Value 11)).
Proof. cbn. discriminate. Qed.

(** ** Sequencing *)

(** C6: bind is associative on a common input, for Reader on every
    environment [e0] and for State on every state [s0]: the two sides return
    the same value or raise the same exception, and leave the same world. *)
Theorem bind_associative_on_run W E S A B C F G F' G'
    `{Callable W F A (Reader W E B)} `{Callable W G B (Reader W E C)}
    `{Callable W F' A (state.State W S B)}
    `{Callable W G' B (state.State W S C)}
    (m : Reader W E A) (f : F) (g : G) (e0 : E)
    (m' : state.State W S A) (f' : F') (g' : G') (s0 : S) (w : W) :
  run (bind (bind m f) g) [e0] w =
    run (bind m (lam1 (fun x => r <- f⟨x⟩ ;; ret (bind r g)))) [e0] w /\
  state.run (state.bind (state.bind m' f') g') s0 w =
    state.run
      (state.bind m' (lam1 (fun x => r <- f'⟨x⟩ ;; ret (state.bind r g'))))
      s0 w.
Proof.
  split.
  - run_all.
  - run_all.
Qed.

(** ** State *)

(** C7: [m.bind(f).run(s)] runs [m] on [s] to get [(a, s2)] and then is
    [f(a).run(s2)]; on the example of the specification the result is
    [(2, 12)]. *)
Theorem state_bind_threads W S A B F `{Callable W F A (state.State W S B)}
    (m : state.State W S A) (f : F) (s : S) (w : W) :
  state.run (state.bind m f) s w =
    ('(a, s2) <- state.run m s ;; r <- f⟨a⟩ ;; state.run r s2) w /\
  (forall a s2 w1, state.run m s w = (Return (a, s2), w1) ->
     state.run (state.bind m f) s w = (r <- f⟨a⟩ ;; state.run r s2) w1) /\
  state.run (state.bind m1 m2) 5 w = (Return (2, 12), w).
Proof.
  repeat split.
  intros a s2 w1 Hm. cbn in *. unfold seq. rewrite Hm. reflexivity.
Qed.

Lemma state_bind_threads_witness :
  state.run (state.bind (state.unit 7) (@m2 nat)) 3 0%nat =
    (r <- m2⟨7⟩ ;; state.run r 3) 0%nat.
Proof.
  apply (state_bind_threads (state.unit 7) (@m2 nat) 3 0%nat).
  reflexivity.
Defined.

(** C8: reading the state and writing it back returns [Unit] and leaves the
    state as it was, [State.get().bind(lambda s: State.put(s)).run(s0) ==
    (Unit, s0)]: [get] returns the state as its result, and [put] of that
    result installs it again. *)
Theorem state_get_put_round_trip W S (s0 : S) (w : W) :
  state.run state.get s0 w = (Return (s0, s0), w) /\
  (forall s : S, state.run (state.put s) s0 w = (Return (state.Unit, s), w)) /\
  state.run (state.bind state.get (lam1 (fun s => ret (state.put s)))) s0 w =
    (Return (state.Unit, s0), w).
Proof.
  split; [reflexivity|]. split; [intros s; reflexivity|].
  unfold state.bind, state.run. cbn. unfold seq. cbn. reflexivity.
Qed.

(** ** Equality by probing *)

(** C10, what the code does: Reader equality is not reflexive. A Reader whose
    wrapped function raises an exception of class [Exception] on 42 is
    unequal to itself: [m == m] is [False], since [__eq__] probes both sides
    at 42 only and turns every exception of class [Exception] into
    inequality. *)
Theorem reader_eq_not_reflexive W A (py_eq : A -> A -> M W bool)
    (m : Reader W Z A) (w w' : W) (e : exn) :
  m⟨42⟩ w = (Raise e, w') ->
  is_Exception e = true ->
  __eq__ py_eq m m w = (Return false, w').
Proof.
  intros Hm He. unfold __eq__, try_except.
  unfold seq. rewrite Hm, He. reflexivity.
Qed.

Lemma reader_eq_not_reflexive_witness :
  __eq__ int_eq subscript_reader subscript_reader tt = (Return false, tt).
Proof.
  apply (@reader_eq_not_reflexive Datatypes.unit Z int_eq subscript_reader
           tt tt TypeError); reflexivity.
Defined.

(** C10 as stated fails: not every exception is turned into inequality. The
    wrapped function raises [SystemExit] on 42, and [m == m] raises it too
    instead of being [False]. *)
Lemma reader_eq_raises_SystemExit :
  run (@exiting_reader Datatypes.unit) [42] tt
    = (Raise (BaseExc "SystemExit"), tt) /\
  __eq__ int_eq exiting_reader exiting_reader tt
    = (Raise (BaseExc "SystemExit"), tt) /\
  __eq__ int_eq exiting_reader exiting_reader tt <> (Return false, tt).
Proof. repeat split. discriminate. Qed.




(** ** The partial-application fallback *)

(** How far the [try] of the code reaches. In [map] it encloses the whole
    expression [fn(self(x))]: the fallback is taken when that evaluation
    raises [TypeError], from the application or from the Reader's own wrapped
    function, and the handler calls the wrapped function again; a [TypeError]
    of the wrapped function becomes a partial when the second call returns,
    and propagates when the second call raises. Other exceptions propagate.
    In [apply] the function is taken from [self] before the [try], so every
    exception of [self] propagates; [other]'s wrapped function is inside the
    [try], as in [map]. *)
Lemma fallback_scope W E A B F `{Callable W F A B}
    (r : Reader W E A) (f : F) (rf : Reader W E F) (other : Reader W E A)
    (x : E) (w : W) :
  (forall p w', run (map r f) [x] w = (Return (Curried p), w') ->
     exists w1 v, (v <- r⟨x⟩ ;; f⟨v⟩) w = (Raise TypeError, w1) /\
                  r⟨x⟩ w1 = (Return v, w') /\ p = Partial f [v]) /\
  (forall w1 o w2, r⟨x⟩ w = (Raise TypeError, w1) -> r⟨x⟩ w1 = (o, w2) ->
     run (map r f) [x] w =
       (match o with
        | Return v => Return (Curried (Partial f [v]))
        | Raise e => Raise e
        end, w2)) /\
  (forall e w1, (v <- r⟨x⟩ ;; f⟨v⟩) w = (Raise e, w1) ->
     is_TypeError e = false -> run (map r f) [x] w = (Raise e, w1)) /\
  (forall e w1, rf⟨x⟩ w = (Raise e, w1) ->
     run (apply rf other) [x] w = (Raise e, w1)) /\
  (forall p w', run (apply rf other) [x] w = (Return (Curried p), w') ->
     exists g w0 w1 v, rf⟨x⟩ w = (Return g, w0) /\
       (v <- other⟨x⟩ ;; g⟨v⟩) w0 = (Raise TypeError, w1) /\
       other⟨x⟩ w1 = (Return v, w') /\ p = Partial g [v]) /\
  (forall g w0 w1 o w2, rf⟨x⟩ w = (Return g, w0) ->
     other⟨x⟩ w0 = (Raise TypeError, w1) -> other⟨x⟩ w1 = (o, w2) ->
     run (apply rf other) [x] w =
       (match o with
        | Return v => Return (Curried (Partial g [v]))
        | Raise e => Raise e
        end, w2)) /\
  (forall g w0 e w1, rf⟨x⟩ w = (Return g, w0) ->
     (v <- other⟨x⟩ ;; g⟨v⟩) w0 = (Raise e, w1) ->
     is_TypeError e = false -> run (apply rf other) [x] w = (Raise e, w1)).
Proof.
  cbn. unfold try_except, seq, ret. cbn.
  repeat split.
  - intros p w'.
    destruct (fn r [x] w) as [[v|e] w1] eqn:Hr.
    + destruct (f⟨v⟩ w1) as [[b|e] w2] eqn:Hf; [discriminate|].
      destruct e; cbn; try discriminate.
      destruct (fn r [x] w2) as [[v'|e'] w3] eqn:Hr'; [|discriminate].
      intros [= <- <-]. exists w2, v'. auto.
    + destruct e; cbn; try discriminate.
      destruct (fn r [x] w1) as [[v'|e'] w3] eqn:Hr'; [|discriminate].
      intros [= <- <-]. exists w1, v'. auto.
  - intros w1 o w2 -> ->. cbn. destruct o; reflexivity.
  - intros e w1.
    destruct (fn r [x] w) as [[v|e'] w0].
    + intros -> ->. reflexivity.
    + intros [= -> ->] ->. reflexivity.
  - intros e w1 ->. reflexivity.
  - intros p w'.
    destruct (fn rf [x] w) as [[g|e] w0]; [|discriminate].
    destruct (fn other [x] w0) as [[v|e] w1] eqn:Ho.
    + destruct (g⟨v⟩ w1) as [[b|e] w2] eqn:Hg; [discriminate|].
      destruct e; cbn; try discriminate.
      destruct (fn other [x] w2) as [[v'|e'] w3] eqn:Ho'; [|discriminate].
      intros [= <- <-]. exists g, w0, w2, v'. rewrite Ho, Hg. auto.
    + destruct e; cbn; try discriminate.
      destruct (fn other [x] w1) as [[v'|e'] w3] eqn:Ho'; [|discriminate].
      intros [= <- <-]. exists g, w0, w1, v'. rewrite Ho. auto.
  - intros g w0 w1 o w2 -> -> ->. cbn. destruct o; reflexivity.
  - intros g w0 e w1 ->.
    destruct (fn other [x] w0) as [[v|e'] w2].
    + intros -> ->. reflexivity.
    + intros [= -> ->] ->. reflexivity.
Qed.

Lemma fallback_scope_witness :
  run (map (mkReader flaky) succ_fn) [0] 0%nat =
    (Return (Curried (Partial succ_fn [7])), 2%nat) /\
  run (map (@subscript_reader Datatypes.unit) succ_fn) [42] tt =
    (Raise TypeError, tt) /\
  (exists w1 v,
     (v <- (mkReader (E:=Z) five)⟨0⟩ ;; add2⟨v⟩) tt = (Raise TypeError, w1) /\
     (mkReader (E:=Z) five)⟨0⟩ w1 = (Return v, tt) /\
     Partial add2 [5] = Partial (@add2 Datatypes.unit) [v]).
Proof.
  split; [|split].
  - destruct (@fallback_scope nat Z Z Z _ _ (mkReader flaky) succ_fn
                (pure succ_fn) (mkReader flaky) 0 0%nat)
      as (_ & H2 & _).
    apply (H2 1%nat (Return 7) 2%nat); reflexivity.
  - destruct (@fallback_scope Datatypes.unit Z Z Z _ _ subscript_reader
                succ_fn (pure succ_fn) subscript_reader 42 tt)
      as (_ & H2 & _).
    apply (H2 tt (Raise TypeError) tt); reflexivity.
  - destruct (@fallback_scope Datatypes.unit Z Z Z _ _ (mkReader five) add2
                (pure add2) (mkReader five) 0 tt)
      as (H1 & _).
    apply (H1 (Partial add2 [5]) tt). reflexivity.
Defined.

(** C1 requires that a [TypeError] raised inside the Reader's own wrapped
    function is never swallowed and turned into a partial. The code does
    that on [Reader(flaky).map(lambda x: x + 1).run(0)]: the wrapped function
    raises [TypeError] inside the [try], the handler calls it again, and the
    result is [partial(fn, 7)], although applying the mapped function to 7
    raises nothing; the same with [other]'s wrapped function in [apply]. *)
Theorem fallback_swallows_TypeError_of_wrapped_function :
  flaky [0] 0%nat = (Raise TypeError, 1%nat) /\
  succ_fn⟨7⟩ 2%nat = (Return 8, 2%nat) /\
  run (map (mkReader flaky) succ_fn) [0] 0%nat =
    (Return (Curried (Partial succ_fn [7])), 2%nat) /\
  run (apply (pure succ_fn) (mkReader flaky)) [0] 0%nat =
    (Return (Curried (Partial succ_fn [7])), 2%nat).
Proof. repeat split. Qed.

(** ** Invocations per run *)

(** How often one [run(e)] calls a counted wrapped function, when the
    functions handed to the combinator, and the Readers and functions these
    return, belong to the uncounted world and so never call it themselves.
    Built by [map]: the function of [self] once when evaluating
    [fn(self(e))] raises no [TypeError], twice when it does. Built by [bind]:
    the function of [self] once, that of the Reader [fn] returns at most
    once. Built by [local]: at most once. Built by [apply]: the function of
    [self] once; that of [other] not at all when [self] raises, and otherwise
    once, or twice on the fallback path. *)
Lemma invocations_per_run W E E' A B
    (h : callable W E A) (f : callable W A B)
    (k : callable W A (Reader W E B)) (func : callable W E' E)
    (hf : callable W E (callable W A B)) (x : E) (x' : E') (w : W) :
  invocations (run (map (counted_reader h) (uncounted f)) [x]) w =
    (if raised_TypeError ((v <- h⟨x⟩ ;; f⟨v⟩) w) then 2 else 1)%nat /\
  invocations
    (run (bind (counted_reader h) (instrumented 0 uncounted_reader k)) [x]) w
    = 1%nat /\
  (invocations
     (run (bind (uncounted_reader (mkReader h))
             (instrumented 0 (fun r => counted_reader (fn r)) k)) [x]) w
     <= 1)%nat /\
  (invocations
     (run (local (mkMonadReader (counted_reader h)) (uncounted func)) [x']) w
     <= 1)%nat /\
  invocations
    (run (apply (mkReader (instrumented 1 uncounted hf))
            (uncounted_reader (mkReader h))) [x]) w
    = 1%nat /\
  invocations
    (run (apply (mkReader (instrumented 0 uncounted hf)) (counted_reader h))
       [x]) w
    = match hf [x] w with
      | (Return g, w0) =>
          if raised_TypeError ((v <- h⟨x⟩ ;; g⟨v⟩) w0) then 2 else 1
      | (Raise _, _) => 0
      end%nat.
Proof.
  unfold invocations, raised_TypeError, counted_reader, uncounted_reader,
    counted, uncounted, instrumented.
  repeat split; run_funs; auto.
Qed.

(** C3 requires that one [run(e)] invokes each underlying wrapped function at
    most once. The code does not on
    [Reader(lambda _: 5).map(lambda a, b: a + b).run(0)]: mapping a
    two-parameter function takes the fallback path, whose handler calls the
    wrapped function a second time, and the run has invoked it twice. *)
Theorem map_fallback_invokes_twice :
  run (map (counted_reader (@five Datatypes.unit)) (uncounted add2)) [0]
      (0%nat, tt)
    = (Return (Curried (Partial (uncounted add2) [5])), (2%nat, tt)) /\
  ~ (invocations
       (run (map (counted_reader (@five Datatypes.unit)) (uncounted add2))
          [0%Z])
       tt <= 1)%nat.
Proof. split; [reflexivity|]. cbv. lia. Qed.

(** * Further properties of oslash/reader.py *)

(** ** Monad laws on a run *)

(** X1: left identity. [Reader.unit(x).bind(f).run(e0)] is [f(x).run(e0)]:
    [f] is called once on [x] and the Reader it returns is run on [e0]. *)
Theorem reader_left_identity W E A B F `{Callable W F A (Reader W E B)}
    (x : A) (f : F) (e0 : E) (w : W) :
  run (bind (unit x) f) [e0] w = (r <- f⟨x⟩ ;; r⟨e0⟩) w.
Proof. reflexivity. Qed.

(** X2: right identity. [m.bind(Reader.unit).run(e0)] is [m.run(e0)], also
    when [m] raises or changes the world. *)
Theorem reader_right_identity W E A (m : Reader W E A) (e0 : E) (w : W) :
  run (bind m Reader_unit) [e0] w = run m [e0] w.
Proof.
  cbn. unfold seq. destruct (fn m [e0] w) as [[a|e] w']; reflexivity.
Qed.

(** ** map and apply *)

(** Off the fallback path [map] is [lambda env: fn(self(env))]: the value
    comes back tagged, any exception other than [TypeError] comes back as it
    is. *)
Lemma map_off_fallback W E A B F `{Callable W F A B} (r : Reader W E A)
    (f : F) (x : E) (w : W) :
  raised_TypeError ((v <- r⟨x⟩ ;; f⟨v⟩) w) = false ->
  run (map r f) [x] w =
    (as_Value (fst ((v <- r⟨x⟩ ;; f⟨v⟩) w)), snd ((v <- r⟨x⟩ ;; f⟨v⟩) w)).
Proof.
  unfold raised_TypeError. cbn. unfold try_except, seq, ret. cbn.
  destruct (fn r [x] w) as [[v|e] w1]; cbn.
  - destruct (f⟨v⟩ w1) as [[b|e] w2]; cbn; [reflexivity|].
    intros ->. reflexivity.
  - intros ->. reflexivity.
Qed.

(** X3: [Reader.pure(f).apply(m)] and [m.map(f)] run alike on every
    environment, on the fallback path too: both call [m]'s wrapped function,
    apply [f], and on [TypeError] call the wrapped function again. *)
Theorem apply_pure_is_map W E A B F `{Callable W F A B} (f : F)
    (m : Reader W E A) (e : E) (w : W) :
  run (apply (pure f) m) [e] w = run (map m f) [e] w.
Proof. reflexivity. Qed.

(** X4: the functor identity law holds for [map] wherever the wrapped
    function raises no [TypeError]: [m.map(lambda x: x).run(e)] is then
    [m.run(e)]. *)
Theorem reader_map_identity W E A (m : Reader W E A) (e : E) (w : W) :
  raised_TypeError (run m [e] w) = false ->
  run (map m identity) [e] w =
    (as_Value (fst (run m [e] w)), snd (run m [e] w)).
Proof.
  intros Hm.
  rewrite map_off_fallback.
  - cbn. unfold seq. destruct (fn m [e] w) as [[a|ex] w']; reflexivity.
  - revert Hm. unfold raised_TypeError. cbn. unfold seq.
    destruct (fn m [e] w) as [[a|ex] w']; auto.
Qed.

Lemma reader_map_identity_witness :
  run (map (@ask Datatypes.unit Z) identity) [3] tt = (Return (Value 3), tt).
Proof.
  exact (@reader_map_identity Datatypes.unit Z Z ask 3 tt eq_refl).
Defined.

(** X5: where evaluating [f(m(e))] raises no [TypeError], [m.map(f)] runs as
    [m.bind(lambda x: Reader.unit(f(x)))] does. *)
Theorem reader_map_is_bind_unit W E A B F `{Callable W F A B}
    (m : Reader W E A) (f : F) (e : E) (w : W) :
  raised_TypeError ((v <- m⟨e⟩ ;; f⟨v⟩) w) = false ->
  run (map m f) [e] w =
    (as_Value (fst (run (bind m (Reader_unit_of f)) [e] w)),
     snd (run (bind m (Reader_unit_of f)) [e] w)).
Proof.
  intros Hf. rewrite (map_off_fallback _ _ _ _ Hf).
  cbn. unfold seq, ret. cbn.
  destruct (fn m [e] w) as [[a|ex] w']; [|reflexivity].
  destruct (f⟨a⟩ w') as [[b|ex] w'']; reflexivity.
Qed.

Lemma reader_map_is_bind_unit_witness :
  run (map (@ask Datatypes.unit Z) succ_fn) [3] tt = (Return (Value 4), tt).
Proof.
  exact (@reader_map_is_bind_unit Datatypes.unit Z Z Z _ _ ask succ_fn 3 tt
           eq_refl).
Defined.

(** X6: over a Reader that wraps a pure function [h], [map(f).run(e)] is
    [f(h(e))], except that every [TypeError] of that call, from a missing
    argument or from inside [f], is replaced by [partial(f, h(e))]. *)
Theorem map_over_pure_function W E A B F `{Callable W F A B} (h : E -> A)
    (f : F) (e : E) (w : W) :
  run (map (mkReader (pure_fn h)) f) [e] w =
    match f⟨h e⟩ w with
    | (Raise TypeError, w1) => (Return (Curried (Partial f [h e])), w1)
    | (o, w1) => (as_Value o, w1)
    end.
Proof.
  cbn. unfold try_except, seq, ret. cbn.
  destruct (f⟨h e⟩ w) as [[b|[]] w1]; reflexivity.
Qed.

(** X7: currying. Mapping a two-parameter function takes the fallback path:
    the result is the partial that holds the value of the second call of the
    wrapped function, and calling it with the missing argument calls the
    function on both. *)
Theorem map_curries W E A B (m : Reader W E A) (body : A -> A -> M W B)
    (e : E) (w w1 w2 : W) (v v' : A) :
  m⟨e⟩ w = (Return v, w1) ->
  m⟨e⟩ w1 = (Return v', w2) ->
  run (map m (lam2 body)) [e] w =
    (Return (Curried (Partial (lam2 body) [v'])), w2) /\
  forall y, (Partial (lam2 body) [v'])⟨y⟩ = body v' y.
Proof.
  intros H1 H2. split; [|reflexivity].
  cbn in *. unfold try_except, seq, ret. cbn. rewrite H1. cbn.
  rewrite H2. reflexivity.
Qed.

Lemma map_curries_witness :
  run (map (mkReader (E:=Z) five) add2) [0] tt =
    (Return (Curried (Partial add2 [5])), tt) /\
  forall y, (Partial (@add2 Datatypes.unit) [5])⟨y⟩ = ret (5 + y).
Proof.
  apply (@map_curries Datatypes.unit Z Z Z (mkReader five)
           (fun a b => ret (a + b)) 0 tt tt tt 5 5); reflexivity.
Defined.

(** ** MonadReader.local *)

(** X8: [local] changes the environment for [self] alone. A computation bound
    after [r.local(f)] is run on the environment as it was, not on [f(e)]:
    [r.local(f).bind(k).run(e)] calls [f(e)], runs [r] on the result, and
    runs the Reader [k] returns on [e]. With the identity function
    [r.local(lambda x: x).run(e)] is [r.run(e)]. *)
Theorem local_scopes_the_environment W E E1 A B F K `{Callable W F E1 E}
    `{Callable W K A (Reader W E1 B)}
    (r : MonadReader W E A) (f : F) (k : K) (e : E) (e1 : E1) (w : W) :
  run (bind (local r f) k) [e1] w =
    (e' <- f⟨e1⟩ ;; v <- r⟨e'⟩ ;; r' <- k⟨v⟩ ;; r'⟨e1⟩) w /\
  run (local r identity) [e] w = run r [e] w.
Proof.
  split.
  - run_all.
  - reflexivity.
Qed.

(** X9: [MonadReader.ask().local(f)] and [MonadReader.asks(f)] run alike. *)
Theorem local_ask_is_asks W E E' F `{Callable W F E' E} (f : F) (e : E')
    (w : W) :
  run (local ask f) [e] w = run (asks f) [e] w.
Proof.
  cbn. unfold seq, ret. cbn.
  destruct (f⟨e⟩ w) as [[v|ex] w']; reflexivity.
Qed.

(** ** Reader.__eq__ *)

(** X10: [==] sees the two computations at 42 and nowhere else. For Readers
    that wrap pure functions [h1] and [h2] it is the comparison of [h1(42)]
    with [h2(42)], and for States likewise the comparison of the two pairs:
    computations that agree at 42 are equal, whatever they do elsewhere. *)
Theorem eq_compares_at_42_only W A (eqb : A -> A -> bool)
    (eqb2 : A * Z -> A * Z -> bool) (h1 h2 : Z -> A) (k1 k2 : Z -> A * Z)
    (w : W) :
  __eq__ (fun a b => ret (eqb a b))
      (mkReader (pure_fn h1)) (mkReader (pure_fn h2)) w
    = (Return (eqb (h1 42) (h2 42)), w) /\
  state.__eq__ (fun p q => ret (eqb2 p q))
      (state.mkState (pure_fn k1)) (state.mkState (pure_fn k2)) w
    = (Return (eqb2 (k1 42) (k2 42)), w).
Proof. split; reflexivity. Qed.

(** X11: exceptions outside the class [Exception] are not turned into
    [False]: raised while probing either side, or by the comparison, they
    come out of [==]. *)
Theorem reader_eq_lets_base_exceptions_through W A
    (py_eq : A -> A -> M W bool) (r1 r2 : Reader W Z A) (w w1 : W) (e : exn) :
  (a <- r1⟨42⟩ ;; b <- r2⟨42⟩ ;; py_eq a b) w = (Raise e, w1) ->
  is_Exception e = false ->
  __eq__ py_eq r1 r2 w = (Raise e, w1).
Proof.
  intros Hp He. unfold __eq__, try_except. rewrite Hp, He. reflexivity.
Qed.

Lemma reader_eq_lets_base_exceptions_through_witness :
  __eq__ int_eq ask
      (mkReader (lam1 (fun _ => raise (BaseExc "KeyboardInterrupt")))) tt
    = (Raise (BaseExc "KeyboardInterrupt"), tt).
Proof.
  apply (@reader_eq_lets_base_exceptions_through Datatypes.unit Z int_eq ask
           (mkReader (lam1 (fun _ => raise (BaseExc "KeyboardInterrupt"))))
           tt tt (BaseExc "KeyboardInterrupt")); reflexivity.
Defined.

(** ** The wrapped function of a built Reader *)

(** X12: every Reader built by [unit], [pure], [map], [bind], [apply],
    [ask], [asks] or [local] wraps a function of exactly one parameter, so
    [run] with two or more arguments raises [TypeError] before any of the
    computations it is built from runs. *)
Theorem built_readers_take_one_environment W E E' A B F K G
    `{Callable W F A B} `{Callable W K A (Reader W E B)} `{Callable W G E' E}
    (a : A) (m : Reader W E A) (mf : Reader W E F) (f : F) (k : K) (g : G)
    (pf : G) :
  one_parameter (fn (unit (W:=W) (E:=E) a)) /\
  one_parameter (fn (pure (W:=W) (E:=E) a)) /\
  one_parameter (fn (map m f)) /\
  one_parameter (fn (bind m k)) /\
  one_parameter (fn (apply mf m)) /\
  one_parameter (fn (ask (W:=W) (E:=E))) /\
  one_parameter (fn (asks pf)) /\
  one_parameter (fn (local (mkMonadReader m) g)) /\
  forall (r : Reader W E A) x y rest w,
    one_parameter (fn r) -> run r (x :: y :: rest) w = (Raise TypeError, w).
Proof.
  repeat split.
  intros r x y rest w [_ Hr]. cbn. rewrite Hr. reflexivity.
Qed.

Lemma built_readers_take_one_environment_witness :
  run (bind (@ask Datatypes.unit Z) Reader_unit) [1; 2] tt
    = (Raise TypeError, tt).
Proof.
  destruct (@built_readers_take_one_environment Datatypes.unit Z Z Z Z _ _ _
              _ _ _ 0 ask (pure succ_fn) succ_fn Reader_unit identity identity)
    as (_ & _ & _ & _ & _ & _ & _ & _ & Hrun).
  apply Hrun. split; reflexivity.
Defined.

(** X13: [str] and [repr] of a Reader call the wrapped function with no
    argument, so for a Reader that wraps a one-parameter function, as every
    Reader built by the combinators does, they raise [TypeError] and format
    nothing. *)
Theorem str_of_reader_raises W E A (format : A -> M W string)
    (r : Reader W E A) (w : W) :
  one_parameter (fn r) ->
  __str__ format r w = (Raise TypeError, w) /\
  __repr__ format r w = (Raise TypeError, w).
Proof.
  intros [Hr _]. unfold __repr__, __str__, seq. rewrite Hr. split; reflexivity.
Qed.

Lemma str_of_reader_raises_witness :
  __str__ (fun _ : Z => ret "Reader(5)"%string) (unit (E:=Z) 5) tt
    = (Raise TypeError, tt) /\
  __repr__ (fun _ : Z => ret "Reader(5)"%string) (unit (E:=Z) 5) tt
    = (Raise TypeError, tt).
Proof.
  apply (@str_of_reader_raises Datatypes.unit Z Z
           (fun _ => ret "Reader(5)"%string) (unit 5) tt).
  split; reflexivity.
Defined.

(** * Further properties of oslash/state.py *)

(** X14: the identity laws of [bind]. [State.unit(x).bind(f).run(s)] is
    [f(x).run(s)], and [m.bind(State.unit).run(s)] is [m.run(s)]. *)
Theorem state_identity_laws W S A B F `{Callable W F A (state.State W S B)}
    (x : A) (f : F) (m : state.State W S A) (s : S) (w : W) :
  state.run (state.bind (state.unit x) f) s w =
    (r <- f⟨x⟩ ;; state.run r s) w /\
  state.run (state.bind m State_unit) s w = state.run m s w.
Proof.
  split; [reflexivity|].
  cbn. unfold seq.
  destruct (state.run m s w) as [[[a s']|e] w']; reflexivity.
Qed.

(** X15: the functor laws of [map]. [m.map(lambda x: x)] runs as [m], and
    [m.map(f).map(g)] runs as [m.map(lambda x: g(f(x)))]. *)
Theorem state_functor_laws W S A B C F G `{Callable W F A B}
    `{Callable W G B C} (m : state.State W S A) (f : F) (g : G) (s : S)
    (w : W) :
  state.run (state.map m identity) s w = state.run m s w /\
  state.run (state.map (state.map m f) g) s w =
    state.run (state.map m (compose f g)) s w.
Proof.
  split.
  - cbn. unfold seq.
    destruct (state.run m s w) as [[[a s']|e] w']; reflexivity.
  - run_all.
Qed.

(** X16: [m.map(f)] runs as [m.bind(lambda x: State.unit(f(x)))]: [map]
    changes the result and hands the state on as [m] left it. *)
Theorem state_map_is_bind_unit W S A B F `{Callable W F A B}
    (m : state.State W S A) (f : F) (s : S) (w : W) :
  state.run (state.map m f) s w =
    state.run (state.bind m (State_unit_of f)) s w.
Proof. run_all. Qed.

(** X17: [put] and [get] in a sequence. What follows [put(s)] runs from the
    state [s], whatever the state was before; what follows [get] is given the
    current state and runs from it. So [put] then [get] returns what was put,
    and of two [put] the second one stays. *)
Theorem state_put_get_laws W S B K `{Callable W K S (state.State W S B)}
    (m : state.State W S B) (k : K) (s s' s0 : S) (w : W) :
  state.run (state.bind (state.put s) (then_ m)) s0 w = state.run m s w /\
  state.run (state.bind state.get k) s0 w =
    (r <- k⟨s0⟩ ;; state.run r s0) w /\
  state.run (state.bind (state.put s) (then_ state.get)) s0 w =
    (Return (s, s), w) /\
  state.run (state.bind (state.put s) (then_ (state.put s'))) s0 w =
    (Return (state.Unit, s'), w).
Proof. repeat split. Qed.

(** X18: how often one [run] of a State built by [map] or [bind] invokes the
    wrapped function of [self]. Where the mapper, [fn] and the State that [fn]
    returns do not invoke it themselves: exactly once; and the wrapped
    function of the State that [fn] returns is invoked at most once. Where
    [fn] returns [self] itself, [m.bind(lambda _: m)], the wrapped function is
    invoked twice when its first call returns, and once when it raises. *)
Theorem state_invocations_per_run W S A B (h : callable W S (A * S))
    (f : callable W A B) (k : callable W A (state.State W S B)) (s : S)
    (w : W) :
  invocations
    (state.run (state.map (state.mkState (counted h)) (uncounted f)) s) w
    = 1%nat /\
  invocations
    (state.run
       (state.bind (state.mkState (counted h))
          (instrumented 0
             (fun r => state.mkState (uncounted (state._value r))) k)) s) w
    = 1%nat /\
  (invocations
     (state.run
        (state.bind (state.mkState (uncounted h))
           (instrumented 0
              (fun r => state.mkState (counted (state._value r))) k)) s) w
     <= 1)%nat /\
  invocations
    (state.run
       (state.bind (state.mkState (counted h))
          (then_ (state.mkState (counted h)))) s) w
    = match h [s] w with
      | (Return _, _) => 2
      | (Raise _, _) => 1
      end%nat.
Proof.
  unfold invocations, counted, uncounted, instrumented.
  repeat split; cbn; unfold seq, ret, call, callable_Callable; cbn.
  - destruct (h [s] w) as [[[a s']|e] w1]; cbn; [|reflexivity].
    destruct (f [a] w1) as [[b|e] w2]; reflexivity.
  - destruct (h [s] w) as [[[a s']|e] w1]; cbn; [|reflexivity].
    destruct (k [a] w1) as [[r|e] w2]; cbn; [|reflexivity].
    destruct (state._value r [s'] w2) as [[p|e] w3]; reflexivity.
  - destruct (h [s] w) as [[[a s']|e] w1]; cbn; [|lia].
    destruct (k [a] w1) as [[r|e] w2]; cbn; [|lia].
    destruct (state._value r [s'] w2) as [[p|e] w3]; cbn; lia.
  - destruct (h [s] w) as [[[a s']|e] w1]; cbn; [|reflexivity].
    destruct (h [s'] w1) as [[p|e] w2]; reflexivity.
Qed.
